(** * Verification of the error-code model and the websocket dispatcher

    A shallow embedding of two Go packages of the repository:

    - [errorx] (error codes packed from category / platform / specific
      parts, code-carrying errors, single stack capture);
    - [ws] (header routing key, handler registry, per-message dispatch,
      response envelope and detail verbosity).

    Go's [int] is taken at its 64-bit width and every arithmetic
    operation writes its wrap-around out.  Go pointers to immutable
    structs ([*ErrCode]) are records carrying their address, allocated by
    a counter that the allocating functions thread.  Panics are an
    explicit outcome; [recover] is a match on it.  The libraries the code
    calls ([encoding/json], [fmt], [github.com/pkg/errors], [melody]) are
    not part of the repository: the error values of [pkg/errors] are
    embedded with their documented [Error], [Unwrap] and [Format]
    methods, the rest are section variables.  One dispatch task is
    followed from the message to the write; the tasks of a server share
    the registry only, which they read under its lock. *)

From Stdlib Require Import ZArith Lia String Ascii List DecimalString.
From stdpp Require Import gmap strings list fin_maps.

#[local] Open Scope Z_scope.
#[local] Set Warnings "-register-all".

(** ** Go runtime prelude *)

Module golang.

(** *** 64-bit two's-complement [int] *)

Definition int_min : Z := - 2 ^ 63.
Definition int_max : Z := 2 ^ 63 - 1.

(** The value an [int] register holds after an operation whose
    mathematical result is [x]. *)
Definition wrap (x : Z) : Z := (x + 2 ^ 63) mod 2 ^ 64 - 2 ^ 63.

Definition int_add (a b : Z) : Z := wrap (a + b).
Definition int_mul (a b : Z) : Z := wrap (a * b).
(** [/] and [%] truncate toward zero; with a positive constant divisor
    they cannot overflow. *)
Definition int_quo (a b : Z) : Z := Z.quot a b.
Definition int_rem (a b : Z) : Z := Z.rem a b.

Definition is_int (x : Z) : Prop := int_min <= x <= int_max.

(** [fmt]'s [%d]. *)
Definition show_int (z : Z) : string := NilZero.string_of_int (Z.to_int z).

Definition bytes : Type := list Byte.byte.

(** *** [strings.Contains] *)

Definition contains (s sub : string) : Prop :=
  exists pre post : string, s = pre +:+ sub +:+ post.

Fixpoint hasPrefix (s pre : string) {struct pre} : bool :=
  match pre with
  | EmptyString => true
  | String a pre' =>
      match s with
      | EmptyString => false
      | String b s' => Ascii.eqb a b && hasPrefix s' pre'
      end
  end.

Fixpoint containsb (s sub : string) : bool :=
  hasPrefix s sub
  || match s with
     | EmptyString => false
     | String _ s' => containsb s' sub
     end.

(** *** Panics *)

(** A call either returns or panics with a value; the value is kept
    abstract by the type parameter [P]. *)
Inductive Exec (P A : Type) : Type :=
| Done (a : A)
| Panic (r : P).
Arguments Done {P A} a.
Arguments Panic {P A} r.

End golang.
Import golang.

(** ** Package errorx *)

Module errorx.

(** Code categories. *)
Definition CCBadRequest : Z := 400.
Definition CCUnauthorized : Z := 401.
Definition CCForbidden : Z := 403.
Definition CCNotFound : Z := 404.
Definition CCInternalServer : Z := 500.
Definition CCNotImplemented : Z := 501.
Definition CCUnknown : Z := 900.

(** [*ErrCode]: the struct is never written after [NewErrCode] built
    it, so a handle is its address together with the two fields.  A nil
    handle is [None] of [option ErrCode]. *)
Record ErrCode : Type := mkErrCode {
  ptr : positive;
  code : Z;
  message : string
}.

(** [CodeCombiner] interface. *)
Record CodeCombiner : Type := mkCodeCombiner {
  Combine : Z -> Z -> Z -> Z;
  Separate : Z -> Z * Z * Z
}.

Definition Combine323 (categoryCode platformCode specificCode : Z) : Z :=
  int_add (int_add (int_mul categoryCode 100000) (int_mul platformCode 1000))
          specificCode.

Definition Separate323 (code : Z) : Z * Z * Z :=
  (int_quo code 100000, int_rem (int_quo code 1000) 100, int_rem code 1000).

Definition codeCombiner323 : CodeCombiner :=
  {| Combine := Combine323; Separate := Separate323 |}.

(** *** Stack traces of [pkg/errors] *)

Record Frame : Type := mkFrame {
  fn : string;
  file : string;
  line : Z
}.

Definition StackTrace : Type := list Frame.

(** [%+v] of a frame is the function name, a newline and a tab, then
    [file:line]; [%+v] of a stack prints every frame after a newline. *)
Definition frameText (f : Frame) : string :=
  fn f +:+ String "010" (String "009" (file f +:+ ":" +:+ show_int (line f))).

Fixpoint stackText (st : StackTrace) : string :=
  match st with
  | [] => ""
  | f :: st' => String "010" (frameText f) +:+ stackText st'
  end.

(** *** Error values

    The dynamic types an [error] interface holds in this code base:
    [fundamental], [withStack] and [withMessage] of [pkg/errors], the
    package's own [codeError] (embedded [error], possibly nil, and
    [*ErrCode]), and two foreign shapes: an error that wraps another
    one behind [Unwrap] without a [Format] method ([fmt.Errorf] with
    [%w]), and a leaf error that is only a text ([errors.New] of the
    standard library, the errors of [encoding/json]).  A nil [error] is
    [None].

    A [codeError] holds a non-nil handle: the nil handle that
    [TakeCodePriority] may return is a separate case in [ws.getResp]. *)
Inductive error : Type :=
| fundamental (msg : string) (stack : StackTrace)
| withStack (err : error) (stack : StackTrace)
| withMessage (cause : error) (msg : string)
| codeError (err : option error) (c : ErrCode)
| wrapError (msg : string) (err : error)
| errorString (s : string).

(** The [CodeError] interface is only implemented by [*codeError]. *)
Record CodeError : Type := mkCodeError {
  ce_error : option error;
  ce_ErrCode : ErrCode
}.

Definition CodeError_error (e : CodeError) : error :=
  codeError (ce_error e) (ce_ErrCode e).

(** Values of type [interface{}]. *)
Inductive any : Type :=
| AnyNil
| AnyBool (b : bool)
| AnyInt (z : Z)
| AnyString (s : string)
| AnyError (e : error)
| AnyMap (m : gmap string any)
| AnySlice (l : list any)
| AnyOther (type repr : string).

(** The type assertion [v.(string)]. *)
Definition asString (v : any) : option string :=
  match v with
  | AnyString s => Some s
  | _ => None
  end.

(** *** ErrCode methods *)

Definition GetErrCode (c : ErrCode) : ErrCode := c.
Definition GetCode (c : ErrCode) : Z := code c.
Definition GetMessage (c : ErrCode) : string := message c.

(** [c == ec] on pointers. *)
Definition IsErrCode (c : ErrCode) (ec : option ErrCode) : bool :=
  match ec with
  | Some ec => Pos.eqb (ptr c) (ptr ec)
  | None => false
  end.

(** *** Error methods *)

Definition codeError_Error (c : ErrCode) : string :=
  show_int (GetCode c) +:+ ": " +:+ GetMessage c.

Fixpoint Error (e : error) : string :=
  match e with
  | fundamental msg _ => msg
  | withStack err _ => Error err
  | withMessage cause msg => msg +:+ ": " +:+ Error cause
  | codeError _ c => codeError_Error c
  | wrapError msg _ => msg
  | errorString s => s
  end.

(** [errors.Unwrap]: the result of the value's [Unwrap] method, nil
    when it has none. *)
Definition Unwrap (e : error) : option error :=
  match e with
  | fundamental _ _ => None
  | withStack err _ => Some err
  | withMessage cause _ => Some cause
  | codeError err _ => err
  | wrapError _ err => Some err
  | errorString _ => None
  end.

(** Does the value implement [StackTrace() errors.StackTrace]? *)
Definition stackTracer (e : error) : option StackTrace :=
  match e with
  | fundamental _ st => Some st
  | withStack _ st => Some st
  | _ => None
  end.

(** [fmt.Sprintf("%+v", e)]: the [Format] methods of [pkg/errors] and of
    [codeError]; a value without [Format] prints its [Error]. *)
Fixpoint FormatPlusV (e : error) : string :=
  match e with
  | fundamental msg st => msg +:+ stackText st
  | withStack err st => FormatPlusV err +:+ stackText st
  | withMessage cause msg => FormatPlusV cause +:+ String "010" msg
  | codeError (Some cause) c =>
      FormatPlusV cause +:+ String "010" (codeError_Error c)
  | codeError None c => codeError_Error c
  | wrapError msg _ => msg
  | errorString s => s
  end.

(** The loop of [hasStack], on a non-nil error. *)
Fixpoint hasStack_from (e : error) : bool :=
  match e with
  | fundamental _ _ => true
  | withStack _ _ => true
  | withMessage cause _ => hasStack_from cause
  | codeError (Some err) _ => hasStack_from err
  | codeError None _ => false
  | wrapError _ err => hasStack_from err
  | errorString _ => false
  end.

Definition hasStack (err : option error) : bool :=
  match err with
  | Some e => hasStack_from e
  | None => false
  end.

(** Every stack captured along the [Unwrap] chain, outermost first. *)
Fixpoint traces (e : error) : list StackTrace :=
  match e with
  | fundamental _ st => [st]
  | withStack err st => st :: traces err
  | withMessage cause _ => traces cause
  | codeError (Some err) _ => traces err
  | codeError None _ => []
  | wrapError _ err => traces err
  | errorString _ => []
  end.

Definition traces_of (err : option error) : list StackTrace :=
  match err with
  | Some e => traces e
  | None => []
  end.

(** [errors.As(err, &e)] with [e] a [*codeError]: the first
    [*codeError] of the chain. *)
Fixpoint As_codeError (e : error) : option CodeError :=
  match e with
  | fundamental _ _ => None
  | withStack err _ => As_codeError err
  | withMessage cause _ => As_codeError cause
  | codeError err c => Some (mkCodeError err c)
  | wrapError _ err => As_codeError err
  | errorString _ => None
  end.

Definition AsCodeError (err : option error) : option CodeError :=
  match err with
  | Some e => As_codeError e
  | None => None
  end.

Definition IsCodeError (err : option error) (c : list (option ErrCode)) : bool :=
  match AsCodeError err with
  | None => false
  | Some ce =>
      match c with
      | [] => true
      | [c0] => IsErrCode (ce_ErrCode ce) c0
      | _ => false
      end
  end.

(** *** Constructors of [pkg/errors]; [callers] is the stack the
    runtime reports at the call. *)

Definition New (callers : StackTrace) (message : string) : error :=
  fundamental message callers.

Definition WithStack (callers : StackTrace) (err : error) : error :=
  withStack err callers.

Definition WithMessage (err : error) (message : string) : error :=
  withMessage err message.

(** *** Allocation: the next free address is threaded. *)

Definition Alloc (A : Type) : Type := positive -> A * positive.

Definition ret {A} (a : A) : Alloc A := fun p => (a, p).

Section WithCombiner.

(** The package-level variable [codeCombiner], as it is set when the
    function runs. *)
Variable codeCombiner : CodeCombiner.

Definition SeparateCode (code : Z) : Z * Z * Z :=
  Separate codeCombiner code.

Definition NewErrCode (categoryCode platformCode specificCode : Z)
    (message : string) : Alloc ErrCode :=
  fun p =>
    ({| ptr := p;
        code := Combine codeCombiner categoryCode platformCode specificCode;
        message := message |},
     Pos.succ p).

Definition GetCategoryCode (c : ErrCode) : Z :=
  let '(v, _, _) := Separate codeCombiner (GetCode c) in v.

Definition GetPlatformCode (c : ErrCode) : Z :=
  let '(_, v, _) := Separate codeCombiner (GetCode c) in v.

Definition GetSpecificCode (c : ErrCode) : Z :=
  let '(_, _, v) := Separate codeCombiner (GetCode c) in v.

Definition getErrCodeHTTPStatus (c : ErrCode) : Z :=
  let categoryCode := GetCategoryCode c in
  if Z.eqb categoryCode CCUnknown then 500 else categoryCode.

End WithCombiner.

Fixpoint TakeCodePriority (fns : list (Alloc (option ErrCode)))
    : Alloc (option ErrCode) :=
  fun p =>
    match fns with
    | [] => (None, p)
    | f :: fns' =>
        match f p with
        | (Some e, p') => (Some e, p')
        | (None, p') => TakeCodePriority fns' p'
        end
    end.

Section WithFmt.

(** [fmt.Sprintf] on a format and its arguments. *)
Variable Sprintf : string -> list any -> string.

Definition WithMessagef (err : error) (format : string) (args : list any)
    : error :=
  withMessage err (Sprintf format args).

Definition newCodeErrorInternal (callers : StackTrace) (c : ErrCode)
    (err : list (option error)) : error :=
  let e := match err with
           | e0 :: _ => e0
           | [] => None
           end in
  let ce := codeError e c in
  if hasStack e then ce else WithStack callers ce.

Definition WithCode (callers : StackTrace) (c : ErrCode) (err : option error)
    (formatWithArgs : list any) : error :=
  let ce := newCodeErrorInternal callers c [err] in
  match formatWithArgs with
  | [] => ce
  | a0 :: rest =>
      match asString a0 with
      | None => ce
      | Some format =>
          match rest with
          | [] => WithMessage ce format
          | _ :: _ => WithMessagef ce format rest
          end
      end
  end.

End WithFmt.

(** ** Induction on error values, through the optional cause of a
    [codeError] *)

Section error_induction.

Variable P : error -> Prop.
Hypothesis Hfundamental : forall msg st, P (fundamental msg st).
Hypothesis HwithStack : forall err st, P err -> P (withStack err st).
Hypothesis HwithMessage : forall cause msg, P cause -> P (withMessage cause msg).
Hypothesis HcodeError_some : forall err c, P err -> P (codeError (Some err) c).
Hypothesis HcodeError_nil : forall c, P (codeError None c).
Hypothesis HwrapError : forall msg err, P err -> P (wrapError msg err).
Hypothesis HerrorString : forall s, P (errorString s).

Fixpoint error_chain_ind (e : error) : P e :=
  match e with
  | fundamental msg st => Hfundamental msg st
  | withStack err st => HwithStack err st (error_chain_ind err)
  | withMessage cause msg => HwithMessage cause msg (error_chain_ind cause)
  | codeError (Some err) c => HcodeError_some err c (error_chain_ind err)
  | codeError None c => HcodeError_nil c
  | wrapError msg err => HwrapError msg err (error_chain_ind err)
  | errorString s => HerrorString s
  end.

End error_induction.

End errorx.

(** ** Package ws *)

Module ws.
Import errorx.

(** *** Header *)

Definition HeaderFieldID : string := "id".
Definition HeaderFieldVersion : string := "version".
Definition HeaderFieldAction : string := "action".

(** [type Header map[string]any]; a nil map reads like the empty one. *)
Abbreviation Header := (gmap string any).

(** [GetHeaderWithType[string]]. *)
Definition GetString (h : Header) (field : string) : string * bool :=
  match h !! field with
  | None => (""%string, false)
  | Some v =>
      match asString v with
      | None => (""%string, false)
      | Some v1 => (v1, true)
      end
  end.

Definition Get (h : Header) (field : string) : option any := h !! field.
Definition Set_ (h : Header) (field : string) (val : any) : Header :=
  <[field := val]> h.
Definition Delete (h : Header) (field : string) : Header := delete field h.

Definition ID (h : Header) : string := fst (GetString h HeaderFieldID).
Definition Version (h : Header) : string := fst (GetString h HeaderFieldVersion).
Definition Action (h : Header) : string := fst (GetString h HeaderFieldAction).

Definition SetID (h : Header) (id : string) : Header :=
  Set_ h HeaderFieldID (AnyString id).
Definition SetVersion (h : Header) (version : string) : Header :=
  Set_ h HeaderFieldVersion (AnyString version).
Definition SetAction (h : Header) (action : string) : Header :=
  Set_ h HeaderFieldAction (AnyString action).

Definition Key (h : Header) : string :=
  let version := Version h in
  let action := Action h in
  if String.eqb version "" then action else version +:+ "/" +:+ action.

(** *** Detail verbosity: [type HandlerDetailsType int] *)

Definition HandlerDetailsNone : Z := 0.
Definition HandlerDetailsNormal : Z := 1.
Definition HandlerDetailsWithError : Z := 2.
Definition HandlerDetailsFull : Z := 3.

Definition handlerRespFieldCode : string := "code".
Definition handlerRespFieldMessage : string := "message".
Definition handlerRespFieldHeader : string := "header".
Definition handlerRespFieldData : string := "data".
Definition handlerRespFieldDetails : string := "details".

(** The value a nil-pointer dereference panics with. *)
Definition nilDereference : any :=
  AnyOther "runtime.Error"
           "runtime error: invalid memory address or nil pointer dereference".

Section Dispatch.

(** The [melody] server and session objects, and everything the
    caller-supplied functions can reach and change. *)
Context {Melody Session World : Type}.

(** [encoding/json]: decoding a message into
    [struct { Header Header `json:"header"` }] gives the header left in
    the struct and the error returned; encoding a response map gives
    bytes or an error. *)
Variable json_Unmarshal_header : bytes -> Header * option error.
Variable json_Marshal : gmap string any -> bytes + error.
(** [fmt]: [Sprintf] on a format and arguments, and [%+v] of a
    recovered panic value. *)
Variable Sprintf : string -> list any -> string.
Variable Sprint_plus_v : any -> string.
(** The stack the runtime reports at a capture site. *)
Variable callers : string -> StackTrace.
(** The error [Session.Write] returns for a frame. *)
Variable Session_Write : Session -> bytes -> option error.
(** The package-level error [ErrParam] (declared outside the files at
    hand), a non-nil error value. *)
Variable ErrParam : error.
(** [errorx]'s combination strategy at the time of the call. *)
Variable codeCombiner : CodeCombiner.

(** *** Connection context *)

Record websocketContext : Type := mkWebsocketContext {
  m : Melody;
  s : Session
}.

Definition newWebsocketContext (m : Melody) (s : Session) : websocketContext :=
  {| m := m; s := s |}.

(** *** Handlers

    A call of a caller-supplied function returns or panics; it may
    have changed the header it was given a pointer to, and the
    world, before either. *)
Definition Call (A : Type) : Type := Exec any A * Header * World.

Record MessageHandlerInterface : Type := mkMessageHandlerInterface {
  GetHeader : Header;
  Handle : websocketContext -> Header -> bytes -> World ->
           Call (any * option error)
}.

(** What [json.Unmarshal] into [struct { Data T `json:"data"` }] leaves
    in [Data] and returns, and the conversion of a [T] to
    [interface{}]. *)
Class Payload (T : Type) : Type := mkPayload {
  json_Unmarshal_data : bytes -> T * option error;
  toAny : T -> any
}.

Record MessageHandler (ReqDataType RespDataType : Type) : Type :=
  mkMessageHandler {
    mh_Header : Header;
    HandleFunc : websocketContext -> Header -> ReqDataType -> World ->
                 Call (RespDataType * option error)
  }.
Arguments mh_Header {ReqDataType RespDataType} _.
Arguments HandleFunc {ReqDataType RespDataType} _ _ _ _ _.

Definition MessageHandler_GetHeader {Req Resp}
    (mh : MessageHandler Req Resp) : Header :=
  mh_Header mh.

Definition MessageHandler_Handle {Req Resp} `{Payload Req} `{Payload Resp}
    (mh : MessageHandler Req Resp) (wsCtx : websocketContext)
    (header : Header) (msg : bytes) (w : World)
    : Call (any * option error) :=
  let '(data, err) := json_Unmarshal_data msg in
  match err with
  | Some err => (Done (AnyNil, Some err), header, w)
  | None =>
      match HandleFunc mh wsCtx header data w with
      | (Done (respData, err), header', w') =>
          (Done (toAny respData, err), header', w')
      | (Panic r, header', w') => (Panic r, header', w')
      end
  end.

(** A [*MessageHandler[Req, Resp]] stored behind the interface. *)
Definition asInterface {Req Resp} `{Payload Req} `{Payload Resp}
    (mh : MessageHandler Req Resp) : MessageHandlerInterface :=
  {| GetHeader := MessageHandler_GetHeader mh;
     Handle := MessageHandler_Handle mh |}.

(** *** The server

    The fields of [defaultHandler] that dispatch reads; the timeouts and
    the handshake hook are only copied into the [melody] configuration.
    The logging sink gets the connection context in place of its
    [context.Context]. *)

Record defaultHandler : Type := mkDefaultHandler {
  melody : Melody;
  maxMessageSize : Z;
  fnGetErrCode : option (error -> option ErrCode);
  fnContextErrorf :
    option (websocketContext -> string -> list any -> World -> World);
  detailsType : Z;
  messageHandlers : gmap string MessageHandlerInterface
}.

Definition DefaultMaxMessageSize : Z := Z.shiftl 32 20.

Definition Option_ : Type := defaultHandler -> defaultHandler.

Definition WithMaxMessageSize (maxMessageSize : Z) : Option_ :=
  fun h =>
    {| melody := melody h; maxMessageSize := maxMessageSize;
       fnGetErrCode := fnGetErrCode h; fnContextErrorf := fnContextErrorf h;
       detailsType := detailsType h; messageHandlers := messageHandlers h |}.

Definition WithGetErrCode (fn : error -> option ErrCode) : Option_ :=
  fun h =>
    {| melody := melody h; maxMessageSize := maxMessageSize h;
       fnGetErrCode := Some fn; fnContextErrorf := fnContextErrorf h;
       detailsType := detailsType h; messageHandlers := messageHandlers h |}.

Definition WithContextErrorf
    (fn : websocketContext -> string -> list any -> World -> World)
    : Option_ :=
  fun h =>
    {| melody := melody h; maxMessageSize := maxMessageSize h;
       fnGetErrCode := fnGetErrCode h; fnContextErrorf := Some fn;
       detailsType := detailsType h; messageHandlers := messageHandlers h |}.

Definition WithDetailsType (detailsType : Z) : Option_ :=
  fun h =>
    {| melody := melody h; maxMessageSize := maxMessageSize h;
       fnGetErrCode := fnGetErrCode h; fnContextErrorf := fnContextErrorf h;
       detailsType := detailsType; messageHandlers := messageHandlers h |}.

Definition NewServer (melody_New : Melody) (opts : list Option_)
    : defaultHandler :=
  let h := {| melody := melody_New;
              maxMessageSize := DefaultMaxMessageSize;
              fnGetErrCode := None;
              fnContextErrorf := None;
              detailsType := 0;
              messageHandlers := ∅ |} in
  fold_left (fun h opt => opt h) opts h.

Definition RegisterMessageHandler (h : defaultHandler)
    (mh : MessageHandlerInterface) : defaultHandler :=
  let header := GetHeader mh in
  {| melody := melody h; maxMessageSize := maxMessageSize h;
     fnGetErrCode := fnGetErrCode h; fnContextErrorf := fnContextErrorf h;
     detailsType := detailsType h;
     messageHandlers := <[Key header := mh]> (messageHandlers h) |}.

Definition errorf (h : defaultHandler) (ctx : websocketContext)
    (format : string) (a : list any) (w : World) : World :=
  match fnContextErrorf h with
  | Some fn => fn ctx format a w
  | None => w
  end.

(** *** Response envelope *)

Definition getDetails (h : defaultHandler) (e : CodeError) : string :=
  if Z.eqb (detailsType h) HandlerDetailsNone then ""
  else if Z.eqb (detailsType h) HandlerDetailsNormal then
    Error (CodeError_error e)
  else if Z.eqb (detailsType h) HandlerDetailsWithError then
    match Unwrap (CodeError_error e) with
    | Some internalError =>
        Error (CodeError_error e) +:+ ":" +:+ Error internalError
    | None => Error (CodeError_error e)
    end
  else if Z.eqb (detailsType h) HandlerDetailsFull then
    FormatPlusV (CodeError_error e)
  else "".

(** The two candidates [getResp] hands to [TakeCodePriority]. *)
Definition classify (h : defaultHandler) (err : error)
    : Alloc (option ErrCode) :=
  fun p =>
    match fnGetErrCode h with
    | None => (None, p)
    | Some fn => (fn err, p)
    end.

Definition defaultCode : Alloc (option ErrCode) :=
  fun p =>
    let '(c, p') :=
      NewErrCode codeCombiner CCInternalServer 0 0 "ErrInternalServer" p in
    (Some c, p').

(** The [CodeError] the envelope is built from: the one found in
    [err], or the one found after wrapping [err] with the code of the
    priority chain.  [None] stands for the nil handle that
    [e.GetCode()] then dereferences. *)
Definition resolve (h : defaultHandler) (err : error)
    : Alloc (option CodeError) :=
  fun p =>
    match AsCodeError (Some err) with
    | Some e => (Some e, p)
    | None =>
        match TakeCodePriority [classify h err; defaultCode] p with
        | (Some c, p') =>
            (AsCodeError
               (Some (WithCode Sprintf (callers "getResp") c (Some err) [])),
             p')
        | (None, p') => (None, p')
        end
    end.

Definition getResp (h : defaultHandler) (header : Header) (respData : any)
    (err : option error) : Alloc (Exec any (gmap string any)) :=
  fun p =>
    let resp : gmap string any :=
      <[handlerRespFieldData := respData]>
        (<[handlerRespFieldMessage := AnyString "Success"]>
           (<[handlerRespFieldCode := AnyInt 0]>
              (<[handlerRespFieldHeader := AnyMap header]> ∅))) in
    match err with
    | None => (Done resp, p)
    | Some err =>
        match resolve h err p with
        | (None, p') => (Panic nilDereference, p')
        | (Some e, p') =>
            let resp :=
              <[handlerRespFieldMessage := AnyString (GetMessage (ce_ErrCode e))]>
                (<[handlerRespFieldCode := AnyInt (GetCode (ce_ErrCode e))]>
                   resp) in
            match getDetails h e with
            | EmptyString => (Done resp, p')
            | details =>
                (Done (<[handlerRespFieldDetails := AnyString details]> resp),
                 p')
            end
        end
    end.

(** *** Dispatch of one message *)

(** The closure [fn] of [handleMessage], with its deferred
    [recover]: the results, the header left in [tmpReq] and the
    world.  [WithMessagef] with a format ending in [%s] is the
    concatenation of the text before it and the argument. *)
Definition handleMessage_fn (h : defaultHandler) (wsCtx : websocketContext)
    (msg : bytes) (w : World) : (any * option error) * Header * World :=
  let '(header, err) := json_Unmarshal_header msg in
  match err with
  | Some err =>
      ((AnyNil,
        Some (withMessage ErrParam ("unmarshal failed, " +:+ Error err))),
       header, w)
  | None =>
      match messageHandlers h !! Key header with
      | None =>
          ((AnyNil,
            Some (withMessage ErrParam
                    ("unknown header msg type " +:+ Key header))),
           header, w)
      | Some mh =>
          match Handle mh wsCtx header msg w with
          | (Done (respData, err), header', w') =>
              ((respData, err), header', w')
          | (Panic r, header', w') =>
              ((AnyNil,
                Some (New (callers "handleMessage")
                          ("panic: " +:+ Sprint_plus_v r))),
               header', w')
          end
      end
  end.

(** The state of the process around one dispatch task. *)
Record State : Type := mkState {
  next_ptr : positive;
  world : World;
  sent : list bytes
}.

(** [s.Write(respBytes)] and the log of its failure. *)
Definition write (h : defaultHandler) (wsCtx : websocketContext)
    (header : Header) (respBytes : bytes) (p : positive) (w : World)
    (out : list bytes) : State :=
  let out' := out ++ [respBytes] in
  match Session_Write (s wsCtx) respBytes with
  | Some err =>
      {| next_ptr := p;
         world := errorf h wsCtx "[ws] %s send message failed, %s"
                    [AnyString (Key header); AnyError err] w;
         sent := out' |}
  | None => {| next_ptr := p; world := w; sent := out' |}
  end.

Definition handleMessage (h : defaultHandler) (s : Session) (msg : bytes)
    (st : State) : Exec any unit * State :=
  let wsCtx := newWebsocketContext (melody h) s in
  let '((respData, err), header, w1) :=
    handleMessage_fn h wsCtx msg (world st) in
  match getResp h header respData err (next_ptr st) with
  | (Panic r, p1) =>
      (Panic r, {| next_ptr := p1; world := w1; sent := sent st |})
  | (Done resp, p1) =>
      match json_Marshal resp with
      | inl respBytes =>
          (Done tt, write h wsCtx header respBytes p1 w1 (sent st))
      | inr err =>
          match getResp h header AnyNil (Some err) p1 with
          | (Panic r, p2) =>
              (Panic r, {| next_ptr := p2; world := w1; sent := sent st |})
          | (Done resp, p2) =>
              match json_Marshal resp with
              | inl respBytes =>
                  (Done tt, write h wsCtx header respBytes p2 w1 (sent st))
              | inr err =>
                  let w2 :=
                    errorf h wsCtx "[ws] %s marshal response failed, %s"
                      [AnyString (Key header); AnyError err] w1 in
                  (Done tt, write h wsCtx header [] p2 w2 (sent st))
              end
          end
      end
  end.

(** The envelope the first [getResp] of [handleMessage] builds. *)
Definition envelope (h : defaultHandler) (s : Session) (msg : bytes)
    (st : State) : Exec any (gmap string any) :=
  let wsCtx := newWebsocketContext (melody h) s in
  let '((respData, err), header, _) :=
    handleMessage_fn h wsCtx msg (world st) in
  fst (getResp h header respData err (next_ptr st)).

End Dispatch.

End ws.

(** ** Definitions used to state the properties *)

Module props.
Import errorx ws.

(** Modelled from the spec: the declaration of [ErrParam] is outside the
    files at hand; the spec names the classification of the two errors
    [handleMessage] builds around it the bad-parameter code.  It is taken
    to be a package-level
    [WithCode(NewErrCode(CCBadRequest, 0, 0, "ErrParam"), nil)], made
    under the default strategy; [callers] is the stack of the package
    initialisation and [p] the address the handle gets. *)
Definition ErrParam_model (callers : StackTrace) (p : positive) : error :=
  let '(c, _) := NewErrCode codeCombiner323 CCBadRequest 0 0 "ErrParam" p in
  WithCode (fun format _ => format) callers c None [].

(** The handle [NewErrCode(CCInternalServer, 0, 0, "ErrInternalServer")]
    makes at address [p]. *)
Definition internalServerCode (codeCombiner : CodeCombiner) (p : positive)
    : ErrCode :=
  {| ptr := p;
     code := Combine codeCombiner CCInternalServer 0 0;
     message := "ErrInternalServer" |}.

(** The handle [getResp] wraps a raw error with, and the next free
    address: the classifier's answer when there is a classifier and it
    gives one, else a fresh internal-server handle. *)
Definition chosenCode {Melody Session World : Type}
    (codeCombiner : CodeCombiner)
    (h : @defaultHandler Melody Session World) (err : error) (p : positive)
    : ErrCode * positive :=
  match fnGetErrCode h with
  | Some fn =>
      match fn err with
      | Some c => (c, p)
      | None => (internalServerCode codeCombiner p, Pos.succ p)
      end
  | None => (internalServerCode codeCombiner p, Pos.succ p)
  end.

(** The [CodeError] an error outcome is reported through. *)
Definition reported {Melody Session World : Type}
    (codeCombiner : CodeCombiner)
    (h : @defaultHandler Melody Session World) (err : error) (p : positive)
    : CodeError :=
  match As_codeError err with
  | Some e => e
  | None => mkCodeError (Some err) (fst (chosenCode codeCombiner h err p))
  end.

(** The stacks [%+v] prints for an error value, and whether every link
    of its chain is a [pkg/errors] value or a [codeError]. *)
Fixpoint printed_traces (e : error) : list StackTrace :=
  match e with
  | fundamental _ st => [st]
  | withStack err st => printed_traces err ++ [st]
  | withMessage cause _ => printed_traces cause
  | codeError (Some err) _ => printed_traces err
  | codeError None _ => []
  | wrapError _ _ => []
  | errorString _ => []
  end.

Fixpoint formatted_chain (e : error) : bool :=
  match e with
  | fundamental _ _ => true
  | withStack err _ => formatted_chain err
  | withMessage cause _ => formatted_chain cause
  | codeError (Some err) _ => formatted_chain err
  | codeError None _ => true
  | wrapError _ _ => false
  | errorString _ => true
  end.

End props.

(** ** A concrete server, for the examples *)

Module demo.
Import errorx ws props.

Definition dq : string := String "034" "".

(** [{"header":{"version":"v1","action":"echo"},"data":{"msgReq":"hi"}}] *)
Definition msg_echo : bytes :=
  list_byte_of_string
    ("{" +:+ dq +:+ "header" +:+ dq +:+ ":{" +:+ dq +:+ "version" +:+ dq +:+ ":"
     +:+ dq +:+ "v1" +:+ dq +:+ "," +:+ dq +:+ "action" +:+ dq +:+ ":" +:+ dq
     +:+ "echo" +:+ dq +:+ "}," +:+ dq +:+ "data" +:+ dq +:+ ":{" +:+ dq
     +:+ "msgReq" +:+ dq +:+ ":" +:+ dq +:+ "hi" +:+ dq +:+ "}}").

(** [{"header":{"version":"v1","action":"echo"},"data":"oops"}] *)
Definition msg_bad_data : bytes :=
  list_byte_of_string
    ("{" +:+ dq +:+ "header" +:+ dq +:+ ":{" +:+ dq +:+ "version" +:+ dq +:+ ":"
     +:+ dq +:+ "v1" +:+ dq +:+ "," +:+ dq +:+ "action" +:+ dq +:+ ":" +:+ dq
     +:+ "echo" +:+ dq +:+ "}," +:+ dq +:+ "data" +:+ dq +:+ ":" +:+ dq
     +:+ "oops" +:+ dq +:+ "}").

(** [{"header":{"action":"missing"},"data":{}}] *)
Definition msg_missing : bytes :=
  list_byte_of_string
    ("{" +:+ dq +:+ "header" +:+ dq +:+ ":{" +:+ dq +:+ "action" +:+ dq +:+ ":"
     +:+ dq +:+ "missing" +:+ dq +:+ "}," +:+ dq +:+ "data" +:+ dq +:+ ":{}}").

Definition header_echo : Header :=
  <["version" := AnyString "v1"]> (<["action" := AnyString "echo"]> ∅).

Definition header_missing : Header := <["action" := AnyString "missing"]> ∅.

Fixpoint bytes_eqb (a b : bytes) : bool :=
  match a, b with
  | [], [] => true
  | x :: a', y :: b' => Byte.eqb x y && bytes_eqb a' b'
  | _, _ => false
  end.

(** What [encoding/json] makes of the three messages. *)
Definition json_Unmarshal_header (msg : bytes) : Header * option error :=
  if bytes_eqb msg msg_echo then (header_echo, None)
  else if bytes_eqb msg msg_bad_data then (header_echo, None)
  else if bytes_eqb msg msg_missing then (header_missing, None)
  else (∅, Some (errorString "unexpected end of JSON input")).

Record MyReqData : Type := mkMyReqData { MsgReq : string }.
Record MyRespData : Type := mkMyRespData { MsgResp : string }.

Definition json_Unmarshal_MyReqData (msg : bytes) : MyReqData * option error :=
  if bytes_eqb msg msg_echo then (mkMyReqData "hi", None)
  else if bytes_eqb msg msg_missing then (mkMyReqData "", None)
  else
    (mkMyReqData "",
     Some (errorString
             "json: cannot unmarshal string into Go struct field .data of type ws_test.MyReqData")).

#[export] Instance MyReqData_Payload : Payload MyReqData :=
  {| json_Unmarshal_data := json_Unmarshal_MyReqData;
     toAny := fun d => AnyOther "*ws_test.MyReqData" (MsgReq d) |}.

#[export] Instance MyRespData_Payload : Payload MyRespData :=
  {| json_Unmarshal_data := fun _ => (mkMyRespData "", None);
     toAny := fun d => AnyOther "*ws_test.MyRespData" (MsgResp d) |}.

(** The world is a probe: the number of calls of a [HandleFunc]. *)
Definition World : Type := nat.

Definition echo : @MessageHandler unit unit World MyReqData MyRespData :=
  {| mh_Header := header_echo;
     HandleFunc := fun _ header reqData calls =>
       (Done (mkMyRespData (MsgReq reqData), None),
        <["A" := AnyString "aa"]> header, S calls) |}.

(** A handler whose function panics after touching the header. *)
Definition faulty : @MessageHandler unit unit World MyReqData MyRespData :=
  {| mh_Header := header_echo;
     HandleFunc := fun _ header _ calls =>
       (Panic (AnyString "index out of range"),
        <["A" := AnyString "aa"]> header, S calls) |}.

(** A handler declared without a version: its key is the action. *)
Definition ping : @MessageHandler unit unit World MyReqData MyRespData :=
  {| mh_Header := <["action" := AnyString "ping"]> ∅;
     HandleFunc := fun _ header _ calls =>
       (Done (mkMyRespData "pong", None), header, S calls) |}.

(** Stand-ins for the encoder, for [fmt] and for the runtime: the
    frame is the decimal code of the envelope. *)
Definition json_Marshal (resp : gmap string any) : bytes + error :=
  match resp !! "code" with
  | Some (AnyInt z) => inl (list_byte_of_string (show_int z))
  | _ => inr (errorString "json: unsupported value")
  end.

Definition Sprintf (format : string) (a : list any) : string := format.

Definition Sprint_plus_v (v : any) : string :=
  match v with
  | AnyString s => s
  | AnyError e => FormatPlusV e
  | _ => "?"
  end.

Definition callers (site : string) : StackTrace :=
  [ {| fn := site; file := "/go/src/ws/handler.go"; line := 213 |} ].

Definition Session_Write (_ : unit) (_ : bytes) : option error := None.

Definition init_stack : StackTrace :=
  [ {| fn := "ws.init"; file := "/go/src/ws/errors.go"; line := 6 |} ].

Definition ErrParam : error := ErrParam_model init_stack 1.

(** A success handle, and a classifier that answers it for any error. *)
Definition OK : ErrCode := {| ptr := 2; code := 0; message := "OK" |}.
Definition classify_OK (_ : error) : option ErrCode := Some OK.

Definition ErrNotFound : ErrCode :=
  {| ptr := 3; code := 40400000; message := "ErrNotFound" |}.

Definition server (opts : list (@Option_ unit unit World))
    (mhs : list (@MessageHandlerInterface unit unit World))
    : @defaultHandler unit unit World :=
  fold_left RegisterMessageHandler mhs (NewServer tt opts).

Definition start : @State World := {| next_ptr := 10; world := 0%nat; sent := [] |}.

Definition run (h : @defaultHandler unit unit World) (msg : bytes)
    : Exec any unit * @State World :=
  handleMessage json_Unmarshal_header json_Marshal Sprintf Sprint_plus_v callers
    Session_Write ErrParam codeCombiner323 h tt msg start.

Definition reply (h : @defaultHandler unit unit World) (msg : bytes)
    : Exec any (gmap string any) :=
  envelope json_Unmarshal_header Sprintf Sprint_plus_v callers ErrParam
    codeCombiner323 h tt msg start.

End demo.

(** * Properties *)

Import errorx ws props.

(** ** Integers and strings *)

#[local] Arguments String.append !s1 s2 : simpl nomatch.

Lemma wrap_id (x : Z) : is_int x -> wrap x = x.
Proof.
  unfold is_int, int_min, int_max, wrap. intros Hx.
  rewrite Z.mod_small; lia.
Qed.

Lemma hasPrefix_app (s sub : string) :
  hasPrefix s sub = true <-> exists post, s = sub +:+ post.
Proof.
  revert s. induction sub as [|a sub IH]; intros s; simpl.
  - split; [intros _; exists s; reflexivity | intros _; reflexivity].
  - destruct s as [|b s].
    + split; [discriminate | intros [post H]; discriminate].
    + rewrite andb_true_iff, Ascii.eqb_eq, IH. split.
      * intros [-> [post ->]]. exists post. reflexivity.
      * intros [post H]. simpl in H. inversion H. split; [reflexivity|].
        exists post. reflexivity.
Qed.

Lemma containsb_spec (s sub : string) :
  containsb s sub = true <-> contains s sub.
Proof.
  unfold contains. induction s as [|a s IH]; simpl.
  - rewrite orb_false_r, hasPrefix_app. split.
    + intros [post H]. exists ""%string, post. exact H.
    + intros [pre [post H]]. destruct pre; simpl in H.
      * exists post. exact H.
      * discriminate.
  - rewrite orb_true_iff, IH, hasPrefix_app. split.
    + intros [[post H] | [pre [post H]]].
      * exists ""%string, post. exact H.
      * exists (String a pre), post. simpl. now rewrite H.
    + intros [pre [post H]]. destruct pre as [|b pre]; simpl in H.
      * left. exists post. exact H.
      * right. inversion H. exists pre, post. reflexivity.
Qed.

Lemma not_contains (s sub : string) :
  containsb s sub = false -> ~ contains s sub.
Proof.
  intros Hb Hc. apply containsb_spec in Hc. congruence.
Qed.

Lemma append_assoc (a b c : string) : (a +:+ b) +:+ c = a +:+ (b +:+ c).
Proof. induction a as [|x a IH]; simpl; [reflexivity | now rewrite IH]. Qed.

Lemma append_nil_r (a : string) : a +:+ "" = a.
Proof. induction a as [|x a IH]; simpl; [reflexivity | now rewrite IH]. Qed.

Lemma contains_refl (s : string) : contains s s.
Proof. exists ""%string, ""%string. simpl. now rewrite append_nil_r. Qed.

Lemma contains_app_l (s t sub : string) : contains s sub -> contains (s +:+ t) sub.
Proof.
  intros [pre [post ->]]. exists pre, (post +:+ t).
  now rewrite !append_assoc.
Qed.

Lemma contains_app_r (s t sub : string) : contains t sub -> contains (s +:+ t) sub.
Proof.
  intros [pre [post ->]]. exists (s +:+ pre), post.
  now rewrite !append_assoc.
Qed.

(** ** The loops of errorx, one iteration at a time *)

(** [hasStack] tests the head for a [StackTrace] method and moves to
    [errors.Unwrap] of it. *)
Lemma hasStack_step (e : error) :
  hasStack (Some e) =
  match stackTracer e with
  | Some _ => true
  | None => hasStack (Unwrap e)
  end.
Proof. destruct e as [| | |[err|] c| |]; reflexivity. Qed.

(** [errors.As] tests the head for being a [*codeError] and moves to
    its [Unwrap]. *)
Lemma AsCodeError_step (e : error) :
  AsCodeError (Some e) =
  match e with
  | codeError err c => Some (mkCodeError err c)
  | _ => AsCodeError (Unwrap e)
  end.
Proof. destruct e; reflexivity. Qed.

Lemma hasStack_traces (e : error) :
  hasStack_from e = negb (match traces e with [] => true | _ => false end).
Proof.
  induction e using error_chain_ind; simpl; auto.
Qed.

Lemma hasStack_false_traces (err : option error) :
  hasStack err = false -> traces_of err = [].
Proof.
  destruct err as [e|]; simpl; [|reflexivity].
  rewrite hasStack_traces. destruct (traces e); [reflexivity | discriminate].
Qed.

Lemma hasStack_true_traces (err : option error) :
  hasStack err = true -> traces_of err <> [].
Proof.
  destruct err as [e|]; simpl; [|discriminate].
  rewrite hasStack_traces. destruct (traces e); [discriminate | congruence].
Qed.

(** ** C1: packing and unpacking *)

(** C1, as amended: for a category code [c >= 0], a platform code
    [0 <= p < 100] and a specific code [0 <= s < 1000] whose packed value
    [c*100000 + p*1000 + s] does not exceed the largest [int], unpacking
    the packed code with the default strategy gives the three parts
    back. *)
Theorem Separate_Combine_in_range (c p s : Z) :
  0 <= c -> 0 <= p < 100 -> 0 <= s < 1000 ->
  c * 100000 + p * 1000 + s <= int_max ->
  Separate codeCombiner323 (Combine codeCombiner323 c p s) = (c, p, s).
Proof.
  intros Hc Hp Hs Hmax. simpl. unfold Combine323, Separate323.
  unfold int_add, int_mul, int_quo, int_rem.
  assert (Hmax' : c * 100000 + p * 1000 + s <= 2 ^ 63 - 1) by exact Hmax.
  rewrite (wrap_id (c * 100000)) by (unfold is_int, int_min, int_max; lia).
  rewrite (wrap_id (p * 1000)) by (unfold is_int, int_min, int_max; lia).
  rewrite (wrap_id (c * 100000 + p * 1000))
    by (unfold is_int, int_min, int_max; lia).
  rewrite (wrap_id (c * 100000 + p * 1000 + s))
    by (unfold is_int, int_min, int_max; lia).
  set (n := c * 100000 + p * 1000 + s).
  assert (Hn : 0 <= n) by (unfold n; lia).
  rewrite (Z.quot_div_nonneg n 100000) by lia.
  rewrite (Z.quot_div_nonneg n 1000) by lia.
  rewrite (Z.rem_mod_nonneg n 1000) by lia.
  assert (Hq1 : n / 100000 = c).
  { symmetry. apply (Z.div_unique n 100000 c (p * 1000 + s)); unfold n; lia. }
  assert (Hq2 : n / 1000 = c * 100 + p).
  { symmetry. apply (Z.div_unique n 1000 (c * 100 + p) s); unfold n; lia. }
  assert (Hr3 : n mod 1000 = s).
  { symmetry. apply (Z.mod_unique n 1000 (c * 100 + p) s); unfold n; lia. }
  rewrite Hq1, Hq2, Hr3.
  rewrite Z.rem_mod_nonneg by lia.
  assert (Hr2 : (c * 100 + p) mod 100 = p).
  { symmetry. apply (Z.mod_unique (c * 100 + p) 100 c p); lia. }
  now rewrite Hr2.
Qed.

Lemma Separate_Combine_in_range_witness :
  Separate codeCombiner323 (Combine codeCombiner323 404 10 1) = (404, 10, 1).
Proof.
  apply (Separate_Combine_in_range 404 10 1);
    unfold int_max; lia.
Defined.

(** C1 fails as stated: the category code [92233720368548] is a
    non-negative [int], yet its packed value wraps around and unpacks to
    other parts. *)
Lemma Separate_Combine_overflow :
  0 <= 92233720368548 /\ is_int 92233720368548 /\
  Combine codeCombiner323 92233720368548 0 0 = -9223372036854751616 /\
  Separate codeCombiner323 (Combine codeCombiner323 92233720368548 0 0)
    = (-92233720368547, -51, -616) /\
  Separate codeCombiner323 (Combine codeCombiner323 92233720368548 0 0)
    <> (92233720368548, 0, 0).
Proof.
  unfold is_int, int_min, int_max.
  repeat split; try lia; try (vm_compute; congruence).
Qed.

(** ** WithCode *)

(** A message layer carries no stack and hides neither the [codeError]
    nor the stacks below it. *)
Lemma WithCode_shape (Sprintf : string -> list any -> string)
    (callers : StackTrace) (c : ErrCode) (err : option error)
    (formatWithArgs : list any) :
  let ce := newCodeErrorInternal callers c [err] in
  WithCode Sprintf callers c err formatWithArgs = ce \/
  exists msg, WithCode Sprintf callers c err formatWithArgs = withMessage ce msg.
Proof.
  unfold WithCode. destruct formatWithArgs as [|a0 rest]; [now left|].
  destruct (asString a0) as [format|]; [|now left].
  destruct rest; right; eexists; reflexivity.
Qed.

Lemma newCodeErrorInternal_As (callers : StackTrace) (c : ErrCode)
    (err : option error) :
  As_codeError (newCodeErrorInternal callers c [err]) = Some (mkCodeError err c).
Proof.
  unfold newCodeErrorInternal. destruct (hasStack err); reflexivity.
Qed.

Lemma WithCode_As (Sprintf : string -> list any -> string)
    (callers : StackTrace) (c : ErrCode) (err : option error)
    (formatWithArgs : list any) :
  AsCodeError (Some (WithCode Sprintf callers c err formatWithArgs))
  = Some (mkCodeError err c).
Proof.
  destruct (WithCode_shape Sprintf callers c err formatWithArgs) as [-> | [msg ->]];
    simpl; apply newCodeErrorInternal_As.
Qed.

Lemma WithCode_traces (Sprintf : string -> list any -> string)
    (callers : StackTrace) (c : ErrCode) (err : option error)
    (formatWithArgs : list any) :
  traces (WithCode Sprintf callers c err formatWithArgs)
  = traces (newCodeErrorInternal callers c [err]).
Proof.
  destruct (WithCode_shape Sprintf callers c err formatWithArgs) as [-> | [msg ->]];
    reflexivity.
Qed.

(** C8: [WithCode] captures a stack only when the cause's chain exposes
    none.  When [hasStack] finds a stack tracer in the chain of the
    cause, the [codeError] is returned without a [withStack] layer and the
    stacks of the result are exactly those of the cause; otherwise (a nil
    cause included) the [codeError] is wrapped once and the result
    carries exactly the one stack captured at the call. *)
Theorem WithCode_captures_stack_once (Sprintf : string -> list any -> string)
    (callers : StackTrace) (c : ErrCode) (err : option error)
    (formatWithArgs : list any) :
  if hasStack err
  then newCodeErrorInternal callers c [err] = codeError err c
       /\ traces (WithCode Sprintf callers c err formatWithArgs) = traces_of err
       /\ traces_of err <> []
  else newCodeErrorInternal callers c [err] = withStack (codeError err c) callers
       /\ traces (WithCode Sprintf callers c err formatWithArgs) = [callers]
       /\ traces_of err = [].
Proof.
  rewrite WithCode_traces. unfold newCodeErrorInternal.
  destruct (hasStack err) eqn:Hs.
  - split; [reflexivity|]. split.
    + destruct err; reflexivity.
    + now apply hasStack_true_traces.
  - pose proof (hasStack_false_traces err Hs) as Hnil.
    split; [reflexivity|]. split; [|exact Hnil].
    unfold WithStack. simpl. destruct err as [e|]; simpl in *; now rewrite ?Hnil.
Qed.

(** ** IsCodeError *)

Lemma IsCodeError_WithCode (Sprintf : string -> list any -> string)
    (callers : StackTrace) (c : ErrCode) (err : option error)
    (formatWithArgs : list any) (target : ErrCode) :
  IsCodeError (Some (WithCode Sprintf callers c err formatWithArgs)) [Some target]
  = Pos.eqb (ptr c) (ptr target).
Proof.
  unfold IsCodeError. now rewrite WithCode_As.
Qed.

(** C9: [IsCodeError] with a target code compares handles, not packed
    integers.  Two handles declared one after the other from the same
    category, platform and specific parts carry the same integer code; an
    error made with the first is not recognised as the second and is
    recognised as the first.  In general the answer for an error made
    with handle [c] is the equality of the address of [c] with that of
    the target. *)
Theorem IsCodeError_compares_handles (Sprintf : string -> list any -> string)
    (codeCombiner : CodeCombiner) (callers : StackTrace)
    (cause : option error) (formatWithArgs : list any)
    (categoryCode platformCode specificCode : Z) (m1 m2 : string) (p : positive) :
  let '(c1, p1) := NewErrCode codeCombiner categoryCode platformCode specificCode m1 p in
  let '(c2, _) := NewErrCode codeCombiner categoryCode platformCode specificCode m2 p1 in
  let err := Some (WithCode Sprintf callers c1 cause formatWithArgs) in
  GetCode c1 = GetCode c2
  /\ IsCodeError err [Some c2] = false
  /\ IsCodeError err [Some c1] = true
  /\ forall c target : ErrCode,
       IsCodeError (Some (WithCode Sprintf callers c cause formatWithArgs))
                   [Some target]
       = Pos.eqb (ptr c) (ptr target).
Proof.
  simpl. split; [reflexivity|].
  rewrite !IsCodeError_WithCode. simpl.
  split; [apply Pos.eqb_neq; lia|].
  split; [apply Pos.eqb_refl|].
  intros c target. apply IsCodeError_WithCode.
Qed.

(** C10: when the first extra argument of [WithCode] is not a string,
    all the extra arguments are ignored: the result is that of
    [WithCode(c, err)], the bare code error with no message layer. *)
Theorem WithCode_ignores_non_string_format
    (Sprintf : string -> list any -> string) (callers : StackTrace)
    (c : ErrCode) (err : option error) (a0 : any) (rest : list any) :
  asString a0 = None ->
  WithCode Sprintf callers c err (a0 :: rest) = WithCode Sprintf callers c err []
  /\ WithCode Sprintf callers c err (a0 :: rest)
     = newCodeErrorInternal callers c [err].
Proof.
  intros Ha. unfold WithCode. rewrite Ha. split; reflexivity.
Qed.

Lemma WithCode_ignores_non_string_format_witness :
  let Sprintf := fun (format : string) (_ : list any) => format in
  let c := mkErrCode 1 40000000 "ErrBadRequest" in
  let err := Some (errorString "boom") in
  WithCode Sprintf [] c err [AnyInt 7; AnyString "id %s"; AnyString "x"]
  = WithCode Sprintf [] c err []
  /\ WithCode Sprintf [] c err [AnyInt 7; AnyString "id %s"; AnyString "x"]
     = newCodeErrorInternal [] c [err].
Proof.
  intros Sprintf c err.
  apply (WithCode_ignores_non_string_format Sprintf [] c err (AnyInt 7)).
  reflexivity.
Defined.

(** ** The response envelope *)

Section Envelope.

Context {Melody Session World : Type}.
Variable Sprintf : string -> list any -> string.
Variable callers : string -> StackTrace.
Variable codeCombiner : CodeCombiner.

Implicit Types (h : @defaultHandler Melody Session World) (header : Header).

(** [TakeCodePriority] asks the classifier first and evaluates the
    default candidate, which allocates, only when the classifier is
    absent or answers nil. *)
Lemma TakeCodePriority_classifier_first h (err : error) (p : positive) :
  TakeCodePriority [classify h err; defaultCode codeCombiner] p
  = (Some (fst (chosenCode codeCombiner h err p)),
     snd (chosenCode codeCombiner h err p)).
Proof.
  unfold chosenCode, classify, defaultCode. simpl.
  destruct (fnGetErrCode h) as [fn|]; [destruct (fn err)|]; reflexivity.
Qed.

Lemma resolve_reported h (err : error) (p : positive) :
  fst (resolve Sprintf callers codeCombiner h err p)
  = Some (reported codeCombiner h err p).
Proof.
  unfold resolve, reported. unfold AsCodeError at 1.
  destruct (As_codeError err) as [e|]; [reflexivity|].
  rewrite TakeCodePriority_classifier_first.
  now rewrite WithCode_As.
Qed.

(** The fields of the envelope of an error outcome. *)
Lemma getResp_error h header (respData : any) (err : error) (p : positive) :
  exists resp : gmap string any,
    fst (getResp Sprintf callers codeCombiner h header respData (Some err) p)
    = Done resp
    /\ resp !! "header" = Some (AnyMap header)
    /\ resp !! "data" = Some respData
    /\ resp !! "code"
       = Some (AnyInt (GetCode (ce_ErrCode (reported codeCombiner h err p))))
    /\ resp !! "message"
       = Some (AnyString (GetMessage (ce_ErrCode (reported codeCombiner h err p))))
    /\ resp !! "details"
       = match getDetails h (reported codeCombiner h err p) with
         | EmptyString => None
         | details => Some (AnyString details)
         end.
Proof.
  pose proof (resolve_reported h err p) as Hres.
  unfold getResp.
  destruct (resolve Sprintf callers codeCombiner h err p) as [oe p'].
  simpl in Hres. subst oe.
  unfold handlerRespFieldCode, handlerRespFieldMessage, handlerRespFieldHeader,
    handlerRespFieldData, handlerRespFieldDetails.
  destruct (getDetails h (reported codeCombiner h err p)) as [|a d];
    eexists; (split; [reflexivity|]); simpl;
    repeat split; by simplify_map_eq.
Qed.

Lemma getResp_success h header (respData : any) (p : positive) :
  getResp Sprintf callers codeCombiner h header respData None p
  = (Done (<["data" := respData]>
             (<["message" := AnyString "Success"]>
                (<["code" := AnyInt 0]> (<["header" := AnyMap header]> ∅)))),
     p).
Proof. reflexivity. Qed.

(** [getResp] returns: the nil handle it would dereference cannot come
    out of the priority chain, whose last candidate always answers. *)
Lemma getResp_returns h header (respData : any) (err : option error)
    (p : positive) :
  exists resp, fst (getResp Sprintf callers codeCombiner h header respData err p)
               = Done resp.
Proof.
  destruct err as [err|].
  - destruct (getResp_error h header respData err p) as [resp [H _]]. eauto.
  - rewrite getResp_success. eauto.
Qed.

End Envelope.

(** ** What [%+v] prints *)

Lemma append_not_empty_r (s t : string) : t <> ""%string -> s +:+ t <> ""%string.
Proof. destruct s; simpl; [auto | discriminate]. Qed.

Lemma codeError_Error_not_empty (c : ErrCode) : codeError_Error c <> ""%string.
Proof.
  unfold codeError_Error. apply append_not_empty_r. discriminate.
Qed.

Lemma FormatPlusV_codeError_not_empty (err : option error) (c : ErrCode) :
  FormatPlusV (codeError err c) <> ""%string.
Proof.
  destruct err as [cause|]; simpl.
  - apply append_not_empty_r. discriminate.
  - apply codeError_Error_not_empty.
Qed.

Lemma FormatPlusV_prints (e : error) (st : StackTrace) :
  In st (printed_traces e) -> contains (FormatPlusV e) (stackText st).
Proof.
  induction e using error_chain_ind; simpl; intros Hin;
    try contradiction.
  - destruct Hin as [<- | []]. apply contains_app_r, contains_refl.
  - apply in_app_or in Hin. destruct Hin as [Hin | [<- | []]].
    + apply contains_app_l. auto.
    + apply contains_app_r, contains_refl.
  - apply contains_app_l. auto.
  - apply contains_app_l. auto.
Qed.

Lemma formatted_chain_prints_all (e : error) (st : StackTrace) :
  formatted_chain e = true -> In st (traces e) -> In st (printed_traces e).
Proof.
  induction e using error_chain_ind; simpl; intros Hf Hin;
    try contradiction; try discriminate; auto.
  destruct Hin as [<- | Hin]; apply in_or_app; [right; now left | left; auto].
Qed.

(** ** C7: the registry *)

Section Registry.

Context {Melody Session World : Type}.

Implicit Types (h : @defaultHandler Melody Session World)
  (mh : @MessageHandlerInterface Melody Session World).

Lemma RegisterMessageHandler_lookup h mh (k : string) :
  messageHandlers (RegisterMessageHandler h mh) !! k
  = if decide (Key (GetHeader mh) = k) then Some mh else messageHandlers h !! k.
Proof. unfold RegisterMessageHandler. simpl. apply lookup_insert. Qed.

Lemma Register_others_keep h (later : list MessageHandlerInterface) (k : string) :
  Forall (fun mh => Key (GetHeader mh) <> k) later ->
  messageHandlers (fold_left RegisterMessageHandler later h) !! k
  = messageHandlers h !! k.
Proof.
  intros Hl. revert h. induction Hl as [|mh later Hne _ IH]; intros h; simpl.
  - reflexivity.
  - rewrite IH, RegisterMessageHandler_lookup. now rewrite decide_False.
Qed.

(** C7: after two handlers whose headers give the same routing key are
    registered one after the other, a lookup by that key gives the second
    one, and keeps giving it after any further registrations under other
    keys; the registry never lists two handlers under one key, and the
    second registration did not add an entry. *)
Theorem RegisterMessageHandler_last_wins h mh1 mh2
    (later : list MessageHandlerInterface) :
  Key (GetHeader mh1) = Key (GetHeader mh2) ->
  Forall (fun mh => Key (GetHeader mh) <> Key (GetHeader mh2)) later ->
  let h2 := RegisterMessageHandler (RegisterMessageHandler h mh1) mh2 in
  let h' := fold_left RegisterMessageHandler later h2 in
  messageHandlers h2 !! Key (GetHeader mh1) = Some mh2
  /\ messageHandlers h' !! Key (GetHeader mh1) = Some mh2
  /\ (forall (k : string) (a b : MessageHandlerInterface),
        (k, a) ∈ map_to_list (messageHandlers h') ->
        (k, b) ∈ map_to_list (messageHandlers h') -> a = b)
  /\ size (messageHandlers h2)
     = size (messageHandlers (RegisterMessageHandler h mh1)).
Proof.
  intros Hk Hlater h2 h'.
  assert (H2 : messageHandlers h2 !! Key (GetHeader mh1) = Some mh2).
  { unfold h2. rewrite RegisterMessageHandler_lookup. now rewrite decide_True. }
  split; [exact H2|]. split.
  { unfold h'. rewrite Register_others_keep; [exact H2 | now rewrite Hk]. }
  split.
  { intros k a b Ha Hb.
    apply elem_of_map_to_list in Ha. apply elem_of_map_to_list in Hb.
    congruence. }
  unfold h2, RegisterMessageHandler. simpl. rewrite <- Hk.
  rewrite insert_insert_eq.
  now rewrite !map_size_insert.
Qed.

End Registry.

(** ** Dispatch *)

Section DispatchProperties.

Context {Melody Session World : Type}.
Variable json_Unmarshal_header : bytes -> Header * option error.
Variable json_Marshal : gmap string any -> bytes + error.
Variable Sprintf : string -> list any -> string.
Variable Sprint_plus_v : any -> string.
Variable callers : string -> StackTrace.
Variable Session_Write : Session -> bytes -> option error.
Variable ErrParam : error.

Implicit Types (h : @defaultHandler Melody Session World)
  (mh : @MessageHandlerInterface Melody Session World)
  (st : @State World) (header : Header) (s : Session) (msg : bytes).

Local Abbreviation fn_ := (handleMessage_fn json_Unmarshal_header Sprint_plus_v callers ErrParam).
Local Abbreviation handle_ cc :=
  (handleMessage json_Unmarshal_header json_Marshal Sprintf Sprint_plus_v callers
     Session_Write ErrParam cc).
Local Abbreviation envelope_ cc :=
  (envelope json_Unmarshal_header Sprintf Sprint_plus_v callers ErrParam cc).
Local Abbreviation getResp_ cc := (getResp Sprintf callers cc).

Lemma write_sent h (wsCtx : websocketContext) header (b : bytes) (p : positive)
    (w : World) (out : list bytes) :
  sent (write Session_Write h wsCtx header b p w out) = out ++ [b].
Proof. unfold write. destruct (Session_Write _ _); reflexivity. Qed.

(** Every dispatch task runs to its end and hands exactly one frame to
    the session, whatever the message, the handlers and the
    configuration are. *)
Lemma handleMessage_writes_once (cc : CodeCombiner) h s msg st :
  exists (b : bytes) (st' : State),
    handle_ cc h s msg st = (Done tt, st') /\ sent st' = sent st ++ [b].
Proof.
  unfold handleMessage.
  destruct (fn_ h (newWebsocketContext (melody h) s) msg (world st))
    as [[[respData err] header] w1].
  destruct (getResp_returns Sprintf callers cc h header respData err (next_ptr st))
    as [resp Hresp].
  destruct (getResp_ cc h header respData err (next_ptr st)) as [r1 p1].
  simpl in Hresp. subst r1.
  destruct (json_Marshal resp) as [b | merr].
  { eexists _, _. split; [reflexivity | apply write_sent]. }
  destruct (getResp_returns Sprintf callers cc h header AnyNil (Some merr) p1)
    as [resp2 Hresp2].
  destruct (getResp_ cc h header AnyNil (Some merr) p1) as [r2 p2].
  simpl in Hresp2. subst r2.
  destruct (json_Marshal resp2) as [b | merr2];
    eexists _, _; (split; [reflexivity | apply write_sent]).
Qed.

(** When the envelope serialises, its bytes are the frame written. *)
Lemma handleMessage_sends_envelope (cc : CodeCombiner) h s msg st
    (resp : gmap string any) (b : bytes) :
  envelope_ cc h s msg st = Done resp ->
  json_Marshal resp = inl b ->
  exists st' : State,
    handle_ cc h s msg st = (Done tt, st') /\ sent st' = sent st ++ [b].
Proof.
  unfold envelope, handleMessage.
  destruct (fn_ h (newWebsocketContext (melody h) s) msg (world st))
    as [[[respData err] header] w1].
  destruct (getResp_ cc h header respData err (next_ptr st)) as [r1 p1].
  simpl. intros -> Hm. rewrite Hm.
  eexists. split; [reflexivity | apply write_sent].
Qed.

(** *** C3: unknown route *)

(** C3, as amended: when the routing key computed from the decoded
    header has no registered handler, the guarded call returns, without
    touching the header or the world (no handler runs), an error whose
    text contains the key; the response envelope carries the
    bad-parameter code (40000000, not 0) and the registered message of
    that code, and its details, when the verbosity asks for any, are
    those of the code error found inside [ErrParam]: no field of the
    envelope depends on the key but the echoed header. *)
Theorem unknown_route_is_bad_parameter h s msg st header (ce : CodeError) :
  json_Unmarshal_header msg = (header, None) ->
  messageHandlers h !! Key header = None ->
  As_codeError ErrParam = Some ce ->
  GetCode (ce_ErrCode ce) = Combine codeCombiner323 CCBadRequest 0 0 ->
  let err :=
    withMessage ErrParam ("unknown header msg type " +:+ Key header) in
  fn_ h (newWebsocketContext (melody h) s) msg (world st)
  = ((AnyNil, Some err), header, world st)
  /\ contains (Error err) (Key header)
  /\ exists resp : gmap string any,
       envelope_ codeCombiner323 h s msg st = Done resp
       /\ resp !! "code" = Some (AnyInt 40000000)
       /\ resp !! "message" = Some (AnyString (GetMessage (ce_ErrCode ce)))
       /\ resp !! "details"
          = match getDetails h ce with
            | EmptyString => None
            | details => Some (AnyString details)
            end
       /\ resp !! "header" = Some (AnyMap header).
Proof.
  intros Hdec Hmiss Hce Hcode err.
  assert (Hfn : fn_ h (newWebsocketContext (melody h) s) msg (world st)
                = ((AnyNil, Some err), header, world st)).
  { unfold handleMessage_fn. rewrite Hdec, Hmiss. reflexivity. }
  split; [exact Hfn|]. split.
  { exists "unknown header msg type "%string, (": " +:+ Error ErrParam).
    unfold err. cbn [Error]. apply append_assoc. }
  unfold envelope. rewrite Hfn.
  destruct (getResp_error Sprintf callers codeCombiner323 h header AnyNil err
              (next_ptr st)) as [resp (Hr & Hh & _ & Hc & Hm & Hd)].
  assert (Hrep : reported codeCombiner323 h err (next_ptr st) = ce).
  { unfold reported, err. simpl. now rewrite Hce. }
  rewrite Hrep in Hc, Hm, Hd.
  exists resp. rewrite Hcode in Hc. auto.
Qed.

(** *** C2: a handler that panics *)

(** C2, as amended: when the resolved handler panics, the guarded call
    returns the panic as an ordinary error value; the dispatch task runs
    to its end and hands exactly one frame to the session.  The envelope
    holds the code the classifier gives that error, or the
    internal-server code when there is no classifier or it gives none:
    under the default combination strategy and a classifier that never
    answers a handle whose code is 0, the code is not 0. *)
Theorem panic_is_contained h s msg st header mh (r : any) (header' : Header)
    (w' : World) :
  json_Unmarshal_header msg = (header, None) ->
  messageHandlers h !! Key header = Some mh ->
  Handle mh (newWebsocketContext (melody h) s) header msg (world st)
  = (Panic r, header', w') ->
  (forall fn c,
     fnGetErrCode h = Some fn ->
     fn (New (callers "handleMessage") ("panic: " +:+ Sprint_plus_v r)) = Some c ->
     GetCode c <> 0) ->
  let err :=
    New (callers "handleMessage") ("panic: " +:+ Sprint_plus_v r) in
  let c := fst (chosenCode codeCombiner323 h err (next_ptr st)) in
  fn_ h (newWebsocketContext (melody h) s) msg (world st)
  = ((AnyNil, Some err), header', w')
  /\ (exists (b : bytes) (st' : State),
        handle_ codeCombiner323 h s msg st = (Done tt, st')
        /\ sent st' = sent st ++ [b])
  /\ exists resp : gmap string any,
       envelope_ codeCombiner323 h s msg st = Done resp
       /\ resp !! "code" = Some (AnyInt (GetCode c))
       /\ resp !! "message" = Some (AnyString (GetMessage c))
       /\ GetCode c <> 0
       /\ forall b : bytes,
            json_Marshal resp = inl b ->
            exists st' : State,
              handle_ codeCombiner323 h s msg st = (Done tt, st')
              /\ sent st' = sent st ++ [b].
Proof.
  intros Hdec Hreg Hpanic Hcls err c.
  assert (Hfn : fn_ h (newWebsocketContext (melody h) s) msg (world st)
                = ((AnyNil, Some err), header', w')).
  { unfold handleMessage_fn. rewrite Hdec, Hreg, Hpanic. reflexivity. }
  split; [exact Hfn|]. split; [apply handleMessage_writes_once|].
  destruct (getResp_error Sprintf callers codeCombiner323 h header' AnyNil err
              (next_ptr st)) as [resp (Hr & _ & _ & Hc & Hm & _)].
  assert (Henv : envelope_ codeCombiner323 h s msg st = Done resp).
  { unfold envelope. now rewrite Hfn. }
  exists resp. split; [exact Henv|].
  split; [exact Hc|]. split; [exact Hm|]. split.
  - unfold c, chosenCode.
    destruct (fnGetErrCode h) as [fn|] eqn:Hfnc; [|vm_compute; discriminate].
    destruct (fn err) as [c0|] eqn:Hc0; [|vm_compute; discriminate].
    simpl. eapply Hcls; eauto.
  - intros b Hb. eapply handleMessage_sends_envelope; eauto.
Qed.

(** *** C5: the code of a raw error *)

(** C5, as amended: for an error that holds no [CodeError],
    [TakeCodePriority] asks the classifier first and falls back to a fresh
    internal-server handle when there is no classifier or it answers nil;
    the envelope of [getResp] carries the code and message of the handle
    so chosen.  Under the default combination strategy the fallback code
    is 50000000, and the code is not 0 when the classifier never answers
    a handle whose code is 0. *)
Theorem raw_error_code_resolution h header (respData : any) (err : error)
    (p : positive) :
  As_codeError err = None ->
  (forall fn c, fnGetErrCode h = Some fn -> fn err = Some c -> GetCode c <> 0) ->
  let c := fst (chosenCode codeCombiner323 h err p) in
  TakeCodePriority [classify h err; defaultCode codeCombiner323] p
  = (Some c, snd (chosenCode codeCombiner323 h err p))
  /\ GetCode (internalServerCode codeCombiner323 p) = 50000000
  /\ exists resp : gmap string any,
       fst (getResp_ codeCombiner323 h header respData (Some err) p) = Done resp
       /\ resp !! "code" = Some (AnyInt (GetCode c))
       /\ resp !! "message" = Some (AnyString (GetMessage c))
       /\ GetCode c <> 0.
Proof.
  intros Hraw Hcls c.
  split; [apply TakeCodePriority_classifier_first|].
  split; [reflexivity|].
  destruct (getResp_error Sprintf callers codeCombiner323 h header respData err p)
    as [resp (Hr & _ & _ & Hc & Hm & _)].
  assert (Hrep : ce_ErrCode (reported codeCombiner323 h err p) = c).
  { unfold reported. now rewrite Hraw. }
  rewrite Hrep in Hc, Hm.
  exists resp. repeat split; auto.
  unfold c, chosenCode.
  destruct (fnGetErrCode h) as [fn|] eqn:Hfnc; [|vm_compute; discriminate].
  destruct (fn err) as [c0|] eqn:Hc0; [|vm_compute; discriminate].
  simpl. eapply Hcls; eauto.
Qed.

(** *** C4: a payload the handler cannot decode *)

(** A message whose envelope cannot be decoded is classified with
    [ErrParam] by [handleMessage] itself. *)
Lemma undecodable_header_is_bad_parameter h s msg st header (uerr : error)
    (ce : CodeError) :
  json_Unmarshal_header msg = (header, Some uerr) ->
  As_codeError ErrParam = Some ce ->
  GetCode (ce_ErrCode ce) = Combine codeCombiner323 CCBadRequest 0 0 ->
  exists resp : gmap string any,
    envelope_ codeCombiner323 h s msg st = Done resp
    /\ resp !! "code" = Some (AnyInt 40000000).
Proof.
  intros Hdec Hce Hcode.
  unfold envelope, handleMessage_fn. rewrite Hdec.
  set (err := withMessage ErrParam ("unmarshal failed, " +:+ Error uerr)).
  destruct (getResp_error Sprintf callers codeCombiner323 h header AnyNil err
              (next_ptr st)) as [resp (Hr & _ & _ & Hc & _)].
  assert (Hrep : reported codeCombiner323 h err (next_ptr st) = ce).
  { unfold reported, err. simpl. now rewrite Hce. }
  rewrite Hrep, Hcode in Hc. exists resp. auto.
Qed.

(** [MessageHandler.Handle] returns the decoding error as it is and does
    not call [HandleFunc]. *)
Lemma Handle_decode_error {Req Resp : Type} `{!Payload Req} `{!Payload Resp}
    (mh : @MessageHandler Melody Session World Req Resp)
    (wsCtx : websocketContext) header msg (w : World) (data : Req)
    (derr : error) :
  json_Unmarshal_data msg = (data, Some derr) ->
  MessageHandler_Handle mh wsCtx header msg w
  = (Done (AnyNil, Some derr), header, w).
Proof. intros Hd. unfold MessageHandler_Handle. now rewrite Hd. Qed.

(** C4, on the code: when the [data] of a message does not decode into
    the request type of the registered handler, [HandleFunc] is not
    called (header and world are as before, whatever the function is),
    and the raw decoding error is reported, in the absence of a
    classifier, with the internal-server code 50000000 and not with the
    bad-parameter code 40000000 that an undecodable envelope gets. *)
Theorem undecodable_data_is_internal_error {Req Resp : Type}
    `{!Payload Req} `{!Payload Resp} h s msg st header
    (mh : @MessageHandler Melody Session World Req Resp) (data : Req)
    (derr : error) :
  json_Unmarshal_header msg = (header, None) ->
  messageHandlers h !! Key header = Some (asInterface mh) ->
  json_Unmarshal_data msg = (data, Some derr) ->
  As_codeError derr = None ->
  fnGetErrCode h = None ->
  fn_ h (newWebsocketContext (melody h) s) msg (world st)
  = ((AnyNil, Some derr), header, world st)
  /\ Combine codeCombiner323 CCBadRequest 0 0 = 40000000
  /\ exists resp : gmap string any,
       envelope_ codeCombiner323 h s msg st = Done resp
       /\ resp !! "code" = Some (AnyInt 50000000)
       /\ resp !! "message" = Some (AnyString "ErrInternalServer").
Proof.
  intros Hdec Hreg Hdata Hraw Hcls.
  assert (Hfn : fn_ h (newWebsocketContext (melody h) s) msg (world st)
                = ((AnyNil, Some derr), header, world st)).
  { unfold handleMessage_fn. rewrite Hdec, Hreg. simpl.
    now rewrite (Handle_decode_error mh _ header msg (world st) data derr Hdata). }
  split; [exact Hfn|]. split; [reflexivity|].
  unfold envelope. rewrite Hfn.
  destruct (getResp_error Sprintf callers codeCombiner323 h header AnyNil derr
              (next_ptr st)) as [resp (Hr & _ & _ & Hc & Hm & _)].
  assert (Hrep : ce_ErrCode (reported codeCombiner323 h derr (next_ptr st))
                 = internalServerCode codeCombiner323 (next_ptr st)).
  { unfold reported, chosenCode. now rewrite Hraw, Hcls. }
  rewrite Hrep in Hc, Hm. exists resp. auto.
Qed.

(** *** C6: details *)

(** C6, as amended: under verbosity none the envelope of an error
    outcome has no [details] field.  Under verbosity full the field is
    the [%+v] text of the [CodeError] the outcome is reported through;
    that text contains the stack text of every stack [%+v] prints for
    it, which are all the stacks of its own cause chain when every link
    of the chain is a [pkg/errors] value or a [codeError]. *)
Theorem details_follow_verbosity (codeCombiner : CodeCombiner) h header
    (respData : any) (err : error) (p : positive) :
  let e := CodeError_error (reported codeCombiner h err p) in
  (exists resp : gmap string any,
     fst (getResp_ codeCombiner (WithDetailsType HandlerDetailsNone h) header
            respData (Some err) p) = Done resp
     /\ resp !! "details" = None)
  /\ (exists resp : gmap string any,
        fst (getResp_ codeCombiner (WithDetailsType HandlerDetailsFull h) header
               respData (Some err) p) = Done resp
        /\ resp !! "details" = Some (AnyString (FormatPlusV e))
        /\ (forall st : StackTrace,
              In st (printed_traces e) ->
              contains (FormatPlusV e) (stackText st))
        /\ (formatted_chain e = true ->
            forall st : StackTrace,
              In st (traces e) -> contains (FormatPlusV e) (stackText st))).
Proof.
  intros e. split.
  - destruct (getResp_error Sprintf callers codeCombiner
                (WithDetailsType HandlerDetailsNone h) header respData err p)
      as [resp (Hr & _ & _ & _ & _ & Hd)].
    exists resp. split; [exact Hr|]. rewrite Hd. reflexivity.
  - destruct (getResp_error Sprintf callers codeCombiner
                (WithDetailsType HandlerDetailsFull h) header respData err p)
      as [resp (Hr & _ & _ & _ & _ & Hd)].
    exists resp. split; [exact Hr|]. split.
    + rewrite Hd.
      change (getDetails (WithDetailsType HandlerDetailsFull h)
                (reported codeCombiner (WithDetailsType HandlerDetailsFull h)
                   err p))
        with (FormatPlusV e).
      pose proof (FormatPlusV_codeError_not_empty
                    (ce_error (reported codeCombiner h err p))
                    (ce_ErrCode (reported codeCombiner h err p))) as Hne.
      change (FormatPlusV e <> ""%string) in Hne.
      destruct (FormatPlusV e); [contradiction | reflexivity].
    + split.
      * intros st0. apply FormatPlusV_prints.
      * intros Hf st0 Hin. apply FormatPlusV_prints.
        now apply formatted_chain_prints_all.
Qed.

End DispatchProperties.

(** ** The properties on the concrete server *)

Import demo.

Lemma RegisterMessageHandler_last_wins_witness :
  let h := server [] [] in
  let h2 :=
    RegisterMessageHandler (RegisterMessageHandler h (asInterface echo))
      (asInterface faulty) in
  let h' := fold_left RegisterMessageHandler [asInterface ping] h2 in
  Key (GetHeader (asInterface echo)) = Key (GetHeader (asInterface faulty))
  /\ Key (GetHeader (asInterface echo)) = "v1/echo"%string
  /\ messageHandlers h' !! "v1/echo"%string = Some (asInterface faulty).
Proof.
  intros h h2 h'.
  assert (Hk : Key (GetHeader (asInterface echo))
               = Key (GetHeader (asInterface faulty))) by reflexivity.
  assert (Hl : Forall
                 (fun mh : @MessageHandlerInterface unit unit World =>
                    Key (GetHeader mh) <> Key (GetHeader (asInterface faulty)))
                 [asInterface ping]).
  { constructor; [|constructor]. vm_compute. discriminate. }
  destruct (RegisterMessageHandler_last_wins h (asInterface echo)
              (asInterface faulty) [asInterface ping] Hk Hl) as (_ & H & _).
  split; [exact Hk|]. split; [vm_compute; reflexivity|]. exact H.
Defined.

(** The three parts of the claim C3 on [{"header":{"action":"missing"},
    "data":{}}] with no handler under the key [missing]: the code is the
    bad-parameter one and no handler ran, but neither the message nor,
    at the fullest verbosity, the details of the envelope contain the
    key. *)
Lemma unknown_route_reply_lacks_key :
  let h := server [WithDetailsType HandlerDetailsFull] [asInterface echo] in
  json_Unmarshal_header msg_missing = (header_missing, None)
  /\ Key header_missing = "missing"%string
  /\ messageHandlers h !! "missing"%string = None
  /\ exists resp : gmap string any,
       reply h msg_missing = Done resp
       /\ resp !! "code" = Some (AnyInt 40000000)
       /\ resp !! "message" = Some (AnyString "ErrParam")
       /\ resp !! "details" = Some (AnyString "40000000: ErrParam")
       /\ ~ contains "ErrParam" "missing"
       /\ ~ contains "40000000: ErrParam" "missing".
Proof.
  intros h.
  split; [vm_compute; reflexivity|]. split; [vm_compute; reflexivity|].
  split; [vm_compute; reflexivity|].
  eexists. split; [vm_compute; reflexivity|].
  repeat split; try (vm_compute; reflexivity);
    apply not_contains; vm_compute; reflexivity.
Qed.

Lemma unknown_route_is_bad_parameter_witness :
  let h := server [] [asInterface echo] in
  handleMessage_fn json_Unmarshal_header Sprint_plus_v callers ErrParam h
    (newWebsocketContext (melody h) tt) msg_missing (world start)
  = ((AnyNil,
      Some (withMessage ErrParam ("unknown header msg type " +:+ "missing"))),
     header_missing, 0%nat)
  /\ contains
       (Error (withMessage ErrParam ("unknown header msg type " +:+ "missing")))
       "missing"
  /\ exists resp : gmap string any,
       reply h msg_missing = Done resp
       /\ resp !! "code" = Some (AnyInt 40000000)
       /\ resp !! "details" = None.
Proof.
  intros h.
  destruct (unknown_route_is_bad_parameter json_Unmarshal_header Sprintf
              Sprint_plus_v callers ErrParam h tt msg_missing start header_missing
              (mkCodeError None (mkErrCode 1 40000000 "ErrParam")))
    as (Hfn & Hin & resp & Henv & Hc & _ & Hd & _).
  - vm_compute. reflexivity.
  - vm_compute. reflexivity.
  - vm_compute. reflexivity.
  - vm_compute. reflexivity.
  - split; [exact Hfn|]. split; [exact Hin|].
    exists resp. split; [exact Henv|]. split; [exact Hc | exact Hd].
Defined.

(** The claim C2 on a handler that panics, with a classifier that
    answers the success handle: the envelope holds the code 0. *)
Lemma panic_reply_with_zero_code :
  let h := server [WithGetErrCode classify_OK] [asInterface faulty] in
  let wsCtx := newWebsocketContext (melody h) tt in
  Handle (asInterface faulty) wsCtx header_echo msg_echo 0%nat
  = (Panic (AnyString "index out of range"),
     <["A" := AnyString "aa"]> header_echo, 1%nat)
  /\ messageHandlers h !! Key header_echo = Some (asInterface faulty)
  /\ GetCode OK = 0
  /\ (exists resp : gmap string any,
        reply h msg_echo = Done resp
        /\ resp !! "code" = Some (AnyInt 0)
        /\ resp !! "message" = Some (AnyString "OK"))
  /\ exists st' : State,
       run h msg_echo = (Done tt, st')
       /\ sent st' = [list_byte_of_string "0"].
Proof.
  intros h wsCtx.
  split; [vm_compute; reflexivity|]. split; [vm_compute; reflexivity|].
  split; [reflexivity|]. split.
  - eexists. split; [vm_compute; reflexivity|].
    split; vm_compute; reflexivity.
  - eexists. split; vm_compute; reflexivity.
Qed.

Lemma panic_is_contained_witness :
  let h := server [] [asInterface faulty] in
  handleMessage_fn json_Unmarshal_header Sprint_plus_v callers ErrParam h
    (newWebsocketContext (melody h) tt) msg_echo (world start)
  = ((AnyNil,
      Some (fundamental "panic: index out of range" (callers "handleMessage"))),
     <["A" := AnyString "aa"]> header_echo, 1%nat)
  /\ (exists (b : bytes) (st' : State),
        run h msg_echo = (Done tt, st') /\ sent st' = sent start ++ [b])
  /\ exists resp : gmap string any,
       reply h msg_echo = Done resp
       /\ resp !! "code" = Some (AnyInt 50000000).
Proof.
  intros h.
  destruct (panic_is_contained json_Unmarshal_header json_Marshal Sprintf
              Sprint_plus_v callers Session_Write ErrParam h tt msg_echo start
              header_echo (asInterface faulty) (AnyString "index out of range")
              (<["A" := AnyString "aa"]> header_echo) 1%nat)
    as (Hfn & Hrun & resp & Henv & Hc & _).
  - vm_compute. reflexivity.
  - vm_compute. reflexivity.
  - vm_compute. reflexivity.
  - intros fn c Hfn. vm_compute in Hfn. discriminate.
  - split; [exact Hfn|]. split; [exact Hrun|].
    exists resp. split; [exact Henv | exact Hc].
Defined.

(** The claim C5 on a raw error and a classifier that answers the
    success handle: the code of the error envelope is 0. *)
Lemma raw_error_reply_with_zero_code :
  let h := server [WithGetErrCode classify_OK] [] in
  As_codeError (errorString "boom") = None
  /\ TakeCodePriority
       [classify h (errorString "boom"); defaultCode codeCombiner323] 10%positive
     = (Some OK, 10%positive)
  /\ exists resp : gmap string any,
       fst (getResp Sprintf callers codeCombiner323 h ∅ AnyNil
              (Some (errorString "boom")) 10%positive) = Done resp
       /\ resp !! "code" = Some (AnyInt 0).
Proof.
  intros h. split; [reflexivity|]. split; [vm_compute; reflexivity|].
  eexists. split; vm_compute; reflexivity.
Qed.

Lemma raw_error_code_resolution_witness :
  let h := server [] [] in
  TakeCodePriority
    [classify h (errorString "boom"); defaultCode codeCombiner323] 10%positive
  = (Some (internalServerCode codeCombiner323 10), 11%positive)
  /\ exists resp : gmap string any,
       fst (getResp Sprintf callers codeCombiner323 h ∅ AnyNil
              (Some (errorString "boom")) 10%positive) = Done resp
       /\ resp !! "code" = Some (AnyInt 50000000)
       /\ resp !! "message" = Some (AnyString "ErrInternalServer").
Proof.
  intros h.
  destruct (raw_error_code_resolution Sprintf callers h ∅ AnyNil
              (errorString "boom") 10%positive)
    as (Hp & _ & resp & Hr & Hc & Hm & _).
  - reflexivity.
  - intros fn c Hfn. vm_compute in Hfn. discriminate.
  - split; [exact Hp|]. exists resp.
    split; [exact Hr|]. split; [exact Hc | exact Hm].
Defined.

Lemma undecodable_data_is_internal_error_witness :
  let h := server [] [asInterface echo] in
  handleMessage_fn json_Unmarshal_header Sprint_plus_v callers ErrParam h
    (newWebsocketContext (melody h) tt) msg_bad_data (world start)
  = ((AnyNil,
      Some (errorString
              "json: cannot unmarshal string into Go struct field .data of type ws_test.MyReqData")),
     header_echo, 0%nat)
  /\ exists resp : gmap string any,
       reply h msg_bad_data = Done resp
       /\ resp !! "code" = Some (AnyInt 50000000)
       /\ resp !! "message" = Some (AnyString "ErrInternalServer").
Proof.
  intros h.
  destruct (undecodable_data_is_internal_error json_Unmarshal_header Sprintf
              Sprint_plus_v callers ErrParam h tt msg_bad_data start header_echo
              echo (mkMyReqData "")
              (errorString
                 "json: cannot unmarshal string into Go struct field .data of type ws_test.MyReqData"))
    as (Hfn & _ & resp & Henv & Hc & Hm).
  - vm_compute. reflexivity.
  - vm_compute. reflexivity.
  - vm_compute. reflexivity.
  - reflexivity.
  - reflexivity.
  - split; [exact Hfn|]. exists resp.
    split; [exact Henv|]. split; [exact Hc | exact Hm].
Defined.

(** The claim C6 at verbosity full on [WithCode(ErrNotFound, nil)], an
    error that carries the stack [WithCode] captured, and on a raw error
    whose stack lies behind a wrapper made by [fmt.Errorf]: the details
    contain neither stack. *)
Lemma full_details_omit_captured_stack :
  let h := server [WithDetailsType HandlerDetailsFull] [] in
  let st := callers "main.find" in
  let err := WithCode Sprintf st ErrNotFound None [] in
  let raw := wrapError "find user: no rows" (fundamental "no rows" st) in
  err = withStack (codeError None ErrNotFound) st
  /\ hasStack (Some err) = true
  /\ hasStack (Some raw) = true
  /\ (exists resp : gmap string any,
        fst (getResp Sprintf callers codeCombiner323 h ∅ AnyNil (Some err) 10%positive)
        = Done resp
        /\ resp !! "details" = Some (AnyString "40400000: ErrNotFound")
        /\ ~ contains "40400000: ErrNotFound" (stackText st))
  /\ exists (resp : gmap string any) (details : string),
       fst (getResp Sprintf callers codeCombiner323 h ∅ AnyNil (Some raw) 10%positive)
       = Done resp
       /\ resp !! "details" = Some (AnyString details)
       /\ ~ contains details (stackText st).
Proof.
  intros h st err raw.
  split; [reflexivity|]. split; [reflexivity|]. split; [reflexivity|]. split.
  - eexists. split; [vm_compute; reflexivity|].
    split; [vm_compute; reflexivity|].
    apply not_contains. vm_compute. reflexivity.
  - eexists _, _. split; [vm_compute; reflexivity|].
    split; [vm_compute; reflexivity|].
    apply not_contains. vm_compute. reflexivity.
Qed.

Lemma details_follow_verbosity_witness :
  let h := server [] [] in
  let st := callers "main.find" in
  let err := fundamental "no rows" st in
  (exists resp : gmap string any,
     fst (getResp Sprintf callers codeCombiner323
            (WithDetailsType HandlerDetailsNone h) ∅ AnyNil (Some err)
            10%positive) = Done resp
     /\ resp !! "details" = None)
  /\ exists (resp : gmap string any) (details : string),
       fst (getResp Sprintf callers codeCombiner323
              (WithDetailsType HandlerDetailsFull h) ∅ AnyNil (Some err)
              10%positive) = Done resp
       /\ resp !! "details" = Some (AnyString details)
       /\ contains details (stackText st).
Proof.
  intros h st err.
  destruct (details_follow_verbosity Sprintf callers codeCombiner323 h ∅ AnyNil
              err 10%positive)
    as [Hnone (resp & Hr & Hd & _ & Hall)].
  split; [exact Hnone|].
  exists resp. eexists. split; [exact Hr|]. split; [exact Hd|].
  apply Hall; [reflexivity | left; reflexivity].
Defined.
